(** * Victor Smart-Kill integration: polling coordinator and entity adapters

    A shallow embedding of [custom_components/victorsmartkill/__init__.py],
    [entity.py] and [binary_sensor.py].  Python integers are [Z], strings are
    [string], dictionaries with string keys are [gmap string _], and code that
    logs, fires events or raises runs in a state-and-exception monad. *)

From Stdlib Require Import ZArith.
From stdpp Require Import base option list strings pretty sorting gmap gmultiset.

(** ** Python exceptions *)

(** The exceptions that occur in the modelled code.  [BaseExc] stands for a
    [BaseException] that is not an [Exception] (task cancellation, keyboard
    interrupt); every other constructor is an instance of [Exception]. *)
Inductive PyExc : Type :=
  | Exc (cls msg : string)
  | BaseExc (cls : string)
  | StopIteration
  | TypeError (msg : string)
  | ValueError (msg : string)
  | ConfigEntryNotReady
  | UpdateFailed (cause : PyExc).

(** [isinstance(e, Exception)], the test done by [except Exception]. *)
Definition is_Exception (e : PyExc) : bool :=
  match e with
  | BaseExc _ => false
  | _ => true
  end.

Inductive Outcome (A : Type) : Type :=
  | Return (a : A)
  | Raise (e : PyExc).
Arguments Return {A} a.
Arguments Raise {A} e.

(** ** The monad of stateful code that may raise *)

Definition M (St A : Type) : Type := St → Outcome A * St.

Definition raise {St A} (e : PyExc) : M St A := λ s, (Raise e, s).
Definition gets {St A} (f : St → A) : M St A := λ s, (Return (f s), s).
Definition modify {St} (f : St → St) : M St unit := λ s, (Return tt, f s).

Global Instance M_ret {St} : MRet (M St) := λ A a s, (Return a, s).
Global Instance M_bind {St} : MBind (M St) := λ A B k m s,
  match m s with
  | (Return a, s') => k a s'
  | (Raise e, s') => (Raise e, s')
  end.

Global Instance M_fmap {St} : FMap (M St) := λ A B f m s,
  match m s with
  | (Return a, s') => (Return (f a), s')
  | (Raise e, s') => (Raise e, s')
  end.

(** [try: body except Exception as e: handler e].  An exception that is not
    an [Exception] passes through. *)
Definition try_except_Exception {St A}
    (body : M St A) (handler : PyExc → M St A) : M St A := λ s,
  match body s with
  | (Return a, s') => (Return a, s')
  | (Raise e, s') => if is_Exception e then handler e s' else (Raise e, s')
  end.

(** ** Constants of [const.py] and of the host's [homeassistant.const]

    Their values are not part of the modelled files; the development is
    parametric in them. *)
Class Const := {
  DOMAIN : string;
  EVENT_TRAP_LIST_CHANGED : string;
  STARTUP_MESSAGE : string;
  PLATFORMS : list string;
  CONF_USERNAME : string;
  CONF_PASSWORD : string;
  MANUFACTURER : string;
  ICON_CAPTURED : string;
  ATTR_SSID : string;
  ATTR_LAST_KILL_DATE : string;
  ATTR_LAST_REPORT_DATE : string;
  ATTR_BATTERY_LEVEL : string;
  ATTR_LATITUDE : string;
  ATTR_LONGITUDE : string
}.

(** ** Host types and functions

    [datetime.datetime] values and Python floats, with the two host functions
    the entity properties call: the [float] builtin on a string and
    [homeassistant.util.dt.as_local]; either may raise. *)
Class Host := {
  datetime : Type;
  pyfloat : Type;
  float : string → Outcome pyfloat;
  as_local : datetime → Outcome datetime
}.

(** ** [datetime.timedelta] *)

(** A timedelta in Python's normal form: [0 <= seconds < 86400] and
    [0 <= microseconds < 1000000]. *)
Record timedelta := {
  days : Z;
  seconds : Z;
  microseconds : Z
}.

(** [timedelta(minutes=m)]. *)
Definition timedelta_minutes (m : Z) : timedelta :=
  let s := (m * 60)%Z in
  {| days := (s `div` 86400)%Z; seconds := (s `mod` 86400)%Z; microseconds := 0 |}.

Definition total_seconds (d : timedelta) : Z :=
  (days d * 86400 + seconds d)%Z.

Definition SCAN_INTERVAL : timedelta := timedelta_minutes 5.

(** ** Builtins *)

(** [sorted] on a list of integers. *)
Definition sorted (l : list Z) : list Z := merge_sort Z.le l.

(** [next(x for x in l if p x)]: the first element that passes the filter,
    [StopIteration] when the generator is exhausted. *)
Fixpoint next_filter {A} (p : A → bool) (l : list A) : Outcome A :=
  match l with
  | [] => Raise StopIteration
  | x :: l' => if p x then Return x else next_filter p l'
  end.

(** [str] of a list of integers, as an f-string prints it. *)
Fixpoint join_ints (l : list Z) : string :=
  match l with
  | [] => EmptyString
  | [x] => pretty x
  | x :: l' => pretty x +:+ ", " +:+ join_ints l'
  end.

Definition str_ints (l : list Z) : string := "[" +:+ join_ints l +:+ "]".

Section Integration.
Context `{Const, Host}.

(** ** Trap records of the [victor_smart_kill] client library

    Only the fields the integration reads. *)
Record TrapStatistics := {
  kills_present : Z;
  battery_level : Z;
  board_type : string;
  firmware_version : string;
  last_report_date : datetime;
  last_kill_date : datetime
}.

Record Trap := {
  id : Z;
  name : string;
  serial_number : string;
  trap_type_verbose : string;
  ssid : string;
  lat : string;
  long : string;
  trapstatistics : TrapStatistics
}.

(** Truth value of a trap object: the dataclass defines neither [__bool__]
    nor [__len__], so every instance is truthy. *)
Definition Trap_bool (t : Trap) : bool := true.

(** ** Host objects *)

(** An event on the bus; the only payload in this integration maps string
    keys to lists of trap identifiers. *)
Record Event := {
  event_type : string;
  event_data : gmap string (list Z)
}.

Inductive LogLevel := DEBUG | INFO.

Inductive LogArg :=
  | ArgStr (s : string)
  | ArgInt (z : Z)
  | ArgBool (b : bool)
  | ArgIds (ids : list Z)
  | ArgInterval (d : timedelta).

(** One call of [logger.debug] or [logger.info]: the format string, its
    arguments and the [exc_info] flag. *)
Record LogRecord := {
  levelname : LogLevel;
  msg : string;
  args : list LogArg;
  exc_info : bool
}.

(** [VictorAsyncClient(username, password)]; [aclose] closes it. *)
Record VictorAsyncClient := {
  client_username : option string;
  client_password : option string;
  is_closed : bool
}.

(** The coordinator object: the attributes set by the base class
    [DataUpdateCoordinator] and those set by the subclass. *)
Record Coordinator := {
  data : option (list Trap);
  update_interval : timedelta;
  coordinator_name : string;
  _listeners : list nat;
  last_update_success : bool;
  _client : VictorAsyncClient;
  platforms : list string
}.

(** What a coordinator method can touch: the coordinator itself, the event
    bus of [hass] and the log. *)
Record World := {
  self : Coordinator;
  bus : list Event;
  log : list LogRecord
}.

Definition set_self (f : Coordinator → Coordinator) (w : World) : World :=
  {| self := f (self w); bus := bus w; log := log w |}.

Definition logger_debug (m : string) (a : list LogArg) (exc : bool) : M World unit :=
  modify (λ w, {| self := self w; bus := bus w;
                  log := log w ++ [{| levelname := DEBUG; msg := m; args := a; exc_info := exc |}] |}).

(** [hass.bus.async_fire(event_type, event_data=...)]. *)
Definition async_fire (ty : string) (d : gmap string (list Z)) : M World unit :=
  modify (λ w, {| self := self w;
                  bus := bus w ++ [{| event_type := ty; event_data := d |}];
                  log := log w |}).

(** Truth value of [self.data]: [None] and the empty list are falsy. *)
Definition data_bool (d : option (list Trap)) : bool :=
  match d with
  | None | Some [] => false
  | Some (_ :: _) => true
  end.

(** Iterating over [self.data]; [None] is not iterable. *)
Definition iter_data : M World (list Trap) := λ w,
  match data (self w) with
  | Some l => (Return l, w)
  | None => (Raise (TypeError "'NoneType' object is not iterable"), w)
  end.

(** ** [VictorSmartKillDataUpdateCoordinator] *)

(** [_get_traps].  The argument [api] is what awaiting
    [self._api.get_traps()] yields in this cycle: a list of traps or an
    exception. *)
Definition _get_traps (api : Outcome (list Trap)) : M World (list Trap) :=
  try_except_Exception
    (traps ← (λ w, (api, w));
     logger_debug "Received traps %s from Victor Smart-Kill API."
       [ArgIds (sorted (id <$> traps))] false;;
     mret traps)
    (λ e,
      logger_debug "Error getting traps from Victor Smart-Kill API." [] true;;
      raise e).

Definition async_update_data (api : Outcome (list Trap)) : M World (list Trap) :=
  listeners ← gets (λ w, _listeners (self w));
  logger_debug
    "async_update_data running for %s, currently coordinating %d listeners."
    [ArgStr "VictorSmartKillDataUpdateCoordinator"; ArgInt (Z.of_nat (length listeners))]
    false;;
  try_except_Exception
    (d ← gets (λ w, data (self w));
     if negb (data_bool d) then
       _get_traps api
     else
       previous ← iter_data;
       let previous_trap_ids := sorted (id <$> previous) in
       traps ← _get_traps api;
       let current_trap_ids := sorted (id <$> traps) in
       (if bool_decide (previous_trap_ids ≠ current_trap_ids) then
          logger_debug "List of traps has changed from %s to %s."
            [ArgIds previous_trap_ids; ArgIds current_trap_ids] false;;
          async_fire EVENT_TRAP_LIST_CHANGED
            (<["current_traps" := current_trap_ids]>
               (<["previous_traps" := previous_trap_ids]> ∅))
        else mret tt);;
       mret traps)
    (λ exception, raise (UpdateFailed exception)).

(** [DataUpdateCoordinator.__init__] of the host framework stores the name
    and the update interval and starts without data and without listeners;
    the subclass creates the API client and the empty platform list
    before calling it. *)
Definition Coordinator__init__
    (interval : timedelta) (username password : option string) : Coordinator :=
  {| data := None;
     update_interval := interval;
     coordinator_name := DOMAIN;
     _listeners := [];
     last_update_success := true;
     _client := {| client_username := username; client_password := password;
                   is_closed := false |};
     platforms := [] |}.

Definition set_data (d : option (list Trap)) (c : Coordinator) : Coordinator :=
  {| data := d; update_interval := update_interval c;
     coordinator_name := coordinator_name c; _listeners := _listeners c;
     last_update_success := last_update_success c; _client := _client c;
     platforms := platforms c |}.

Definition set_last_update_success (b : bool) (c : Coordinator) : Coordinator :=
  {| data := data c; update_interval := update_interval c;
     coordinator_name := coordinator_name c; _listeners := _listeners c;
     last_update_success := b; _client := _client c;
     platforms := platforms c |}.

Definition add_listener (cb : nat) (c : Coordinator) : Coordinator :=
  {| data := data c; update_interval := update_interval c;
     coordinator_name := coordinator_name c; _listeners := _listeners c ++ [cb];
     last_update_success := last_update_success c; _client := _client c;
     platforms := platforms c |}.

Definition aclose (c : Coordinator) : Coordinator :=
  {| data := data c; update_interval := update_interval c;
     coordinator_name := coordinator_name c; _listeners := _listeners c;
     last_update_success := last_update_success c;
     _client := {| client_username := client_username (_client c);
                   client_password := client_password (_client c);
                   is_closed := true |};
     platforms := platforms c |}.

Definition platforms_append (p : string) (c : Coordinator) : Coordinator :=
  {| data := data c; update_interval := update_interval c;
     coordinator_name := coordinator_name c; _listeners := _listeners c;
     last_update_success := last_update_success c; _client := _client c;
     platforms := platforms c ++ [p] |}.

(** The base class's [async_refresh]: it awaits the update method, stores
    the returned list in [self.data] and records success; an [Exception]
    from the update method is recorded as a failed update and the stored
    data is kept. *)
Definition super_async_refresh (api : Outcome (list Trap)) : M World unit := λ w,
  match async_update_data api w with
  | (Return traps, w') =>
      (Return tt, set_self (λ c, set_last_update_success true (set_data (Some traps) c)) w')
  | (Raise e, w') =>
      if is_Exception e
      then (Return tt, set_self (set_last_update_success false) w')
      else (Raise e, w')
  end.

(** The base class's [async_add_listener] registers the callback. *)
Definition super_async_add_listener (cb : nat) : M World unit :=
  modify (set_self (add_listener cb)).

Definition async_close : M World unit :=
  logger_debug "Close API client." [] false;;
  modify (set_self aclose).

(** The [logger.debug] after the [try] statement is never reached: the
    [try] block returns and the handler re-raises. *)
Definition async_add_listener (update_callback : nat) : M World unit :=
  try_except_Exception
    (super_async_add_listener update_callback)
    (λ e, logger_debug "async_add_listener() failed" [] true;; raise e).

Definition async_refresh (api : Outcome (list Trap)) : M World unit :=
  try_except_Exception
    (super_async_refresh api)
    (λ e, logger_debug "async_refresh() failed" [] true;; raise e);;
  ok ← gets (λ w, last_update_success (self w));
  logger_debug "async_refresh() done, last_update_success is %s" [ArgBool ok] false.

(** ** [async_setup_entry] *)

Record ConfigEntry := {
  entry_id : string;
  domain : string;
  title : string;
  entry_data : gmap string string;
  options : gmap string bool
}.

(** The parts of [hass] and of the config entry that setup writes:
    [hass.data], the bus with its one-shot listeners, the log, the tasks
    created for platform setup and the entry's update listeners. *)
Record HomeAssistant := {
  hass_data : gmap string (gmap string Coordinator);
  hass_bus : list Event;
  hass_log : list LogRecord;
  tasks : list (string * string);
  update_listeners : list string;
  listen_once : list string
}.

Definition hass_log_append (r : LogRecord) : M HomeAssistant unit :=
  modify (λ h, {| hass_data := hass_data h; hass_bus := hass_bus h;
                  hass_log := hass_log h ++ [r]; tasks := tasks h;
                  update_listeners := update_listeners h;
                  listen_once := listen_once h |}).

Definition set_hass_data (f : gmap string (gmap string Coordinator) →
                              gmap string (gmap string Coordinator)) : M HomeAssistant unit :=
  modify (λ h, {| hass_data := f (hass_data h); hass_bus := hass_bus h;
                  hass_log := hass_log h; tasks := tasks h;
                  update_listeners := update_listeners h;
                  listen_once := listen_once h |}).

Definition async_create_task (e p : string) : M HomeAssistant unit :=
  modify (λ h, {| hass_data := hass_data h; hass_bus := hass_bus h;
                  hass_log := hass_log h; tasks := tasks h ++ [(e, p)];
                  update_listeners := update_listeners h;
                  listen_once := listen_once h |}).

Definition add_update_listener (e : string) : M HomeAssistant unit :=
  modify (λ h, {| hass_data := hass_data h; hass_bus := hass_bus h;
                  hass_log := hass_log h; tasks := tasks h;
                  update_listeners := update_listeners h ++ [e];
                  listen_once := listen_once h |}).

Definition async_listen_once (ty : string) : M HomeAssistant unit :=
  modify (λ h, {| hass_data := hass_data h; hass_bus := hass_bus h;
                  hass_log := hass_log h; tasks := tasks h;
                  update_listeners := update_listeners h;
                  listen_once := listen_once h ++ [ty] |}).

(** Runs a method of coordinator [c] against [hass]; the coordinator object
    after the call is returned with the result. *)
Definition call {A} (c : Coordinator) (m : M World A) : M HomeAssistant (A * Coordinator) := λ h,
  let '(r, w) := m {| self := c; bus := hass_bus h; log := hass_log h |} in
  let h' := {| hass_data := hass_data h; hass_bus := bus w; hass_log := log w;
               tasks := tasks h; update_listeners := update_listeners h;
               listen_once := listen_once h |} in
  match r with
  | Return a => (Return (a, self w), h')
  | Raise e => (Raise e, h')
  end.

(** The loop over [PLATFORMS]: an enabled platform is appended to
    [coordinator.platforms] and its setup is scheduled. *)
Fixpoint forward_platforms (entry : ConfigEntry) (ps : list string)
    (c : Coordinator) : M HomeAssistant Coordinator :=
  match ps with
  | [] => mret c
  | platform :: ps' =>
      if default true (options entry !! platform) then
        async_create_task (entry_id entry) platform;;
        forward_platforms entry ps' (platforms_append platform c)
      else forward_platforms entry ps' c
  end.

(** [hass.data[DOMAIN][entry.entry_id]] holds a reference to the
    coordinator object, so the platforms appended after the assignment are
    seen through it: the registered value is the object after the loop. *)
Definition async_setup_entry (entry : ConfigEntry) (api : Outcome (list Trap))
    : M HomeAssistant bool :=
  hass_log_append
    {| levelname := DEBUG; msg := "Setup entry %s %s with scan interval %s.";
       args := [ArgStr (domain entry); ArgStr (title entry); ArgInterval SCAN_INTERVAL];
       exc_info := false |};;
  d ← gets (λ h, hass_data h !! DOMAIN);
  (if bool_decide (d = None) then
     set_hass_data (λ m, <[DOMAIN := ∅]> m);;
     hass_log_append
       {| levelname := INFO; msg := STARTUP_MESSAGE; args := []; exc_info := false |}
   else mret tt);;
  let username := entry_data entry !! CONF_USERNAME in
  let password := entry_data entry !! CONF_PASSWORD in
  let coordinator := Coordinator__init__ SCAN_INTERVAL username password in
  '(_, coordinator) ← call coordinator (async_refresh api);
  if negb (last_update_success coordinator) then raise ConfigEntryNotReady
  else
    coordinator ← forward_platforms entry PLATFORMS coordinator;
    set_hass_data (λ m, <[DOMAIN := <[entry_id entry := coordinator]> (default ∅ (m !! DOMAIN))]> m);;
    add_update_listener (entry_id entry);;
    async_listen_once EVENT_TRAP_LIST_CHANGED;;
    mret true.

(** The coordinator registered for a config entry. *)
Definition registered (h : HomeAssistant) (entry : ConfigEntry) : option Coordinator :=
  hass_data h !! DOMAIN ≫= λ m, m !! entry_id entry.

(** ** [VictorSmartKillEntity] and [VictorSmartKillBinarySensor] *)

(** The entity object: [self.coordinator], set by the base class
    [CoordinatorEntity], and [self.trap]. *)
Record Entity := {
  coordinator : Coordinator;
  trap : Trap
}.

Definition VictorSmartKillEntity__init__ (trap_id : Z) (c : Coordinator) : Outcome Entity :=
  match data c with
  | None => Raise (TypeError "'NoneType' object is not iterable")
  | Some l =>
      match next_filter (λ t, bool_decide (id t = trap_id)) l with
      | Raise e => Raise e
      | Return t =>
          if negb (Trap_bool t) then
            Raise (ValueError ("Trap with id " +:+ pretty trap_id +:+ " not found in list "
                               +:+ str_ints (id <$> l) +:+ " of traps."))
          else Return {| coordinator := c; trap := t |}
      end
  end.

(** The abstract properties a concrete entity class supplies, with the
    overridable [_exclude_device_state_attributes]. *)
Class EntityClass := {
  _name_suffix : string;
  _unique_id_suffix : string;
  _exclude_device_state_attributes : list string
}.

(** The binary sensor overrides the two suffixes.  It also defines
    [_exclude_extra_state_attributes], which the base class never reads, and
    inherits the empty [_exclude_device_state_attributes]. *)
Definition VictorSmartKillBinarySensor : EntityClass :=
  {| _name_suffix := "capture";
     _unique_id_suffix := "capture";
     _exclude_device_state_attributes := [] |}.

Definition _exclude_extra_state_attributes : list string := [ATTR_LAST_KILL_DATE].
Definition device_class : string := "occupancy".
Definition icon : string := ICON_CAPTURED.

(** Values stored in the dictionaries the properties return. *)
Inductive PyVal :=
  | VStr (s : string)
  | VInt (z : Z)
  | VFloat (f : pyfloat)
  | VDatetime (d : datetime)
  | VIdentifiers (s : gset (string * Z * string)).

Definition lift {St A} (o : Outcome A) : M St A := λ s, (o, s).

Section properties.
Context `{EntityClass}.

Definition entity_name : M Entity string :=
  t ← gets trap;
  mret (name t +:+ " " +:+ _name_suffix).

Definition unique_id : M Entity string :=
  t ← gets trap;
  mret (DOMAIN +:+ "_" +:+ pretty (id t) +:+ "_" +:+ _unique_id_suffix).

Definition device_info : M Entity (gmap string PyVal) :=
  t ← gets trap;
  mret (<["sw_version" := VStr (firmware_version (trapstatistics t))]>
       (<["manufacturer" := VStr MANUFACTURER]>
       (<["model" := VStr (trap_type_verbose t +:+ " (" +:+
                           board_type (trapstatistics t) +:+ ")")]>
       (<["name" := VStr (name t)]>
       (<["identifiers" := VIdentifiers {[ (DOMAIN, id t, serial_number t) ]}]> ∅))))).

(** [for key in excluded: if key in d: del d[key]] on the local dict. *)
Definition exclude_keys (d : gmap string PyVal) (excluded : list string) : gmap string PyVal :=
  foldl (λ m key, if bool_decide (is_Some (m !! key)) then delete key m else m) d excluded.

Definition device_state_attributes : M Entity (gmap string PyVal) :=
  t ← gets trap;
  latitude ← lift (float (lat t));
  longitude ← lift (float (long t));
  last_report ← lift (as_local (last_report_date (trapstatistics t)));
  last_kill ← lift (as_local (last_kill_date (trapstatistics t)));
  let state_attributes : gmap string PyVal :=
    <[ATTR_LAST_KILL_DATE := VDatetime last_kill]>
    (<[ATTR_LAST_REPORT_DATE := VDatetime last_report]>
    (<[ATTR_LONGITUDE := VFloat longitude]>
    (<[ATTR_LATITUDE := VFloat latitude]>
    (<[ATTR_SSID := VStr (ssid t)]>
    (<[ATTR_BATTERY_LEVEL := VInt (battery_level (trapstatistics t))]> ∅))))) in
  mret (exclude_keys state_attributes _exclude_device_state_attributes).

Definition is_on : M Entity bool :=
  t ← gets trap;
  mret (bool_decide (kills_present (trapstatistics t) > 0)%Z).

(** The properties of an entity, and the value each evaluates to. *)
Inductive Property := P_name | P_unique_id | P_device_info | P_device_state_attributes | P_is_on.

Inductive PropertyValue :=
  | PStr (s : string)
  | PBool (b : bool)
  | PDict (d : gmap string PyVal).

Definition getattr (p : Property) : M Entity PropertyValue :=
  match p with
  | P_name => PStr <$> entity_name
  | P_unique_id => PStr <$> unique_id
  | P_device_info => PDict <$> device_info
  | P_device_state_attributes => PDict <$> device_state_attributes
  | P_is_on => PBool <$> is_on
  end.
End properties.

(** ** Observations on an update cycle *)

(** The event [async_update_data] fires for a change from the identifiers
    [previous] to the identifiers [current]. *)
Definition trap_list_changed (previous current : list Z) : Event :=
  {| event_type := EVENT_TRAP_LIST_CHANGED;
     event_data := <["current_traps" := current]> (<["previous_traps" := previous]> ∅) |}.

(** The events one update cycle adds to the bus, read off the stored data and
    the outcome of the fetch. *)
Definition fired (d : option (list Trap)) (api : Outcome (list Trap)) : list Event :=
  match d, api with
  | Some (t :: l), Return traps =>
      let previous := sorted (id <$> t :: l) in
      let current := sorted (id <$> traps) in
      if bool_decide (previous ≠ current) then [trap_list_changed previous current] else []
  | _, _ => []
  end.

(** The outcome of one update cycle, read off the outcome of the fetch. *)
Definition updated (api : Outcome (list Trap)) : Outcome (list Trap) :=
  match api with
  | Return traps => Return traps
  | Raise e => Raise (if is_Exception e then UpdateFailed e else e)
  end.

(** One update cycle raises the trap-list-changed event when it puts exactly
    one event of that type on the bus. *)
Definition raises_trap_list_changed (w w' : World) : Prop :=
  ∃ ev, event_type ev = EVENT_TRAP_LIST_CHANGED ∧ bus w' = bus w ++ [ev].

(** ** The lifetime of a coordinator *)

(** The calls that can reach a coordinator once it is set up. *)
Inductive Op :=
  | op_async_update_data (api : Outcome (list Trap))
  | op_async_refresh (api : Outcome (list Trap))
  | op_async_add_listener (update_callback : nat)
  | op_async_close.

Definition run_op (o : Op) (w : World) : World :=
  match o with
  | op_async_update_data api => (async_update_data api w).2
  | op_async_refresh api => (async_refresh api w).2
  | op_async_add_listener cb => (async_add_listener cb w).2
  | op_async_close => (async_close w).2
  end.

(** The states of a coordinator over its lifetime: the object
    [async_setup_entry] registers, and whatever a call makes of it, with the
    bus and the log in any state. *)
Inductive lifetime : Coordinator → Prop :=
  | lifetime_setup entry api h h' c :
      async_setup_entry entry api h = (Return true, h') →
      registered h' entry = Some c →
      lifetime c
  | lifetime_call c o b l :
      lifetime c →
      lifetime (self (run_op o {| self := c; bus := b; log := l |})).

End Integration.

(** ** Unloading and reloading a config entry, and the binary sensor platform *)

Section Lifecycle.
Context `{Const, Host}.

(** [async_setup]: setting up through YAML is not supported; the function
    only reports success. *)
Definition async_setup : M HomeAssistant bool := mret true.

(** Truth value of a coordinator object: the class defines neither
    [__bool__] nor [__len__]. *)
Definition Coordinator_bool (c : Coordinator) : bool := true.

(** [hass.data[DOMAIN][entry.entry_id]]; a missing key raises [KeyError]. *)
Definition hass_data_getitem (entry : ConfigEntry) : M HomeAssistant Coordinator := λ h,
  match hass_data h !! DOMAIN with
  | None => (Raise (Exc "KeyError" DOMAIN), h)
  | Some m =>
      match m !! entry_id entry with
      | None => (Raise (Exc "KeyError" (entry_id entry)), h)
      | Some c => (Return c, h)
      end
  end.

(** [hass.data[DOMAIN].pop(entry.entry_id)]. *)
Definition hass_data_pop (entry : ConfigEntry) : M HomeAssistant Coordinator :=
  c ← hass_data_getitem entry;
  set_hass_data (λ d, <[DOMAIN := delete (entry_id entry) (default ∅ (d !! DOMAIN))]> d);;
  mret c.

(** [async_unload_entry].  The argument [unload] is what awaiting
    [hass.config_entries.async_forward_entry_unload(entry, platform)] yields
    for each platform; the host call is taken to complete with a boolean.
    The result pairs the returned boolean with the coordinator object as the
    call leaves it: the object outlives its removal from [hass.data]. *)
Definition async_unload_entry (entry : ConfigEntry) (unload : string → bool)
    : M HomeAssistant (bool * Coordinator) :=
  hass_log_append
    {| levelname := DEBUG; msg := "Unload entry %s %s.";
       args := [ArgStr (domain entry); ArgStr (title entry)]; exc_info := false |};;
  coordinator ← hass_data_getitem entry;
  let unloaded :=
    forallb unload
      (filter (λ platform, platform ∈ platforms coordinator) PLATFORMS) in
  if unloaded then
    coordinator ← hass_data_pop entry;
    if Coordinator_bool coordinator then
      '(_, coordinator) ← call coordinator async_close;
      mret (unloaded, coordinator)
    else mret (unloaded, coordinator)
  else mret (unloaded, coordinator).

(** [async_reload_entry]: the result of unloading is not looked at. *)
Definition async_reload_entry (entry : ConfigEntry) (unload : string → bool)
    (api : Outcome (list Trap)) : M HomeAssistant unit :=
  async_unload_entry entry unload;;
  async_setup_entry entry api;;
  mret tt.

(** *** [binary_sensor.async_setup_entry] *)

(** The object stored under [hass.data[DOMAIN][entry.entry_id]] as the
    platform reads it; the platform only uses its [coordinator] attribute. *)
Record IntegrationContext := {
  context_coordinator : Coordinator
}.

Inductive PlatformLogArg :=
  | PArgNames (names : list string)
  | PArgStr (s : string)
  | PArgInt (z : Z).

(** What the platform setup writes: its module's log, and the calls of
    [async_add_entities] with the entity list and the update flag. *)
Record Platform := {
  platform_log : list (string * list PlatformLogArg);
  added_entities : list (list Entity * bool)
}.

Definition platform_debug (m : string) (a : list PlatformLogArg) : M Platform unit :=
  modify (λ p, {| platform_log := platform_log p ++ [(m, a)];
                  added_entities := added_entities p |}).

Definition async_add_entities (entities : list Entity) (update_before_add : bool)
    : M Platform unit :=
  modify (λ p, {| platform_log := platform_log p;
                  added_entities := added_entities p ++ [(entities, update_before_add)] |}).

(** The loop [for trap in traps]: one binary sensor is constructed from the
    trap's id and appended to [entities], then the class names of all
    entities so far are logged. *)
Fixpoint add_binary_sensors (c : Coordinator) (traps : list Trap) (entities : list Entity)
    : M Platform (list Entity) :=
  match traps with
  | [] => mret entities
  | t :: traps' =>
      e ← lift (VictorSmartKillEntity__init__ (id t) c);
      let entities := entities ++ [e] in
      platform_debug
        "Add %s binary sensors for trap named '%s' with Victor trap id %d."
        [PArgNames ((λ _, "VictorSmartKillBinarySensor") <$> entities);
         PArgStr (name t); PArgInt (id t)];;
      add_binary_sensors c traps' entities
  end.

(** The argument [context] is [hass.data[DOMAIN][entry.entry_id]]. *)
Definition binary_sensor_async_setup_entry (context : IntegrationContext) : M Platform unit :=
  match data (context_coordinator context) with
  | None => raise (TypeError "'NoneType' object is not iterable")
  | Some traps =>
      entities ← add_binary_sensors (context_coordinator context) traps [];
      async_add_entities entities false
  end.

(** *** Sequences of calls and enabled platforms *)

(** The calls [ops] made one after the other, as the host's scheduler and
    the entities make them. *)
Definition run_ops (ops : list Op) (w : World) : World :=
  foldl (λ w o, run_op o w) w ops.


(** The platforms a config entry enables: those of [PLATFORMS] for which
    [entry.options.get(platform, True)] is true. *)
Definition enabled_platforms (entry : ConfigEntry) : list string :=
  filter (λ platform, default true (options entry !! platform) = true) PLATFORMS.

End Lifecycle.


(** ** Sample values

    Concrete constants, host functions and traps on which the theorems below
    are evaluated.  The strings are placeholders: no statement depends on
    them. *)
Definition sample_const : Const :=
  {| DOMAIN := "victorsmartkill";
     EVENT_TRAP_LIST_CHANGED := "victorsmartkill_trap_list_changed";
     STARTUP_MESSAGE := "startup";
     PLATFORMS := ["binary_sensor"; "sensor"];
     CONF_USERNAME := "username";
     CONF_PASSWORD := "password";
     MANUFACTURER := "manufacturer";
     ICON_CAPTURED := "icon";
     ATTR_SSID := "ssid";
     ATTR_LAST_KILL_DATE := "last_kill_date";
     ATTR_LAST_REPORT_DATE := "last_report_date";
     ATTR_BATTERY_LEVEL := "battery_level";
     ATTR_LATITUDE := "latitude";
     ATTR_LONGITUDE := "longitude" |}.

(** Datetimes as POSIX seconds, floats as their source text. *)
Definition sample_host : Host :=
  {| datetime := Z;
     pyfloat := string;
     float := λ s, if bool_decide (s = EmptyString)
                then Raise (ValueError "could not convert string to float")
                else Return s;
     as_local := λ d, Return d |}.

Definition sample_statistics (kills : Z) : @TrapStatistics sample_host :=
  @Build_TrapStatistics sample_host kills 80%Z "B" "1.0" 1600000000%Z 1590000000%Z.

Definition sample_trap (i kills : Z) : @Trap sample_host :=
  {| id := i; name := "Garage"; serial_number := "SN"; trap_type_verbose := "Mouse";
     ssid := "wifi"; lat := "59.9"; long := "10.7";
     trapstatistics := sample_statistics kills |}.

Definition sample_coordinator (d : option (list (@Trap sample_host))) : @Coordinator sample_host :=
  @set_data sample_host d (@Coordinator__init__ sample_const sample_host SCAN_INTERVAL (Some "u") (Some "p")).

Definition sample_world (d : option (list (@Trap sample_host))) : @World sample_host :=
  {| self := sample_coordinator d; bus := []; log := [] |}.

Definition sample_entry : ConfigEntry :=
  {| entry_id := "entry1"; domain := "victorsmartkill"; title := "Victor";
     entry_data := <["password" := "p"]> (<["username" := "u"]> ∅);
     options := <["sensor" := false]> ∅ |}.

Definition sample_hass : @HomeAssistant sample_host :=
  {| hass_data := ∅; hass_bus := []; hass_log := []; tasks := [];
     update_listeners := []; listen_once := [] |}.

(** The state of [hass] after setting up the sample entry with a fetch that
    returns one trap, and the coordinator then registered for it. *)
Definition sample_hass_after_setup : @HomeAssistant sample_host :=
  (@async_setup_entry sample_const sample_host sample_entry
     (Return [sample_trap 1 0]) sample_hass).2.

Definition sample_registered : @Coordinator sample_host :=
  default (sample_coordinator None)
    (@registered sample_const sample_host sample_hass_after_setup sample_entry).

Definition sample_entry_other : ConfigEntry :=
  {| entry_id := "entry2"; domain := "victorsmartkill"; title := "Cabin";
     entry_data := <["password" := "q"]> (<["username" := "v"]> ∅);
     options := ∅ |}.



Definition sample_entity : @Entity sample_host :=
  {| coordinator := sample_coordinator (Some [sample_trap 2 1]); trap := sample_trap 2 1 |}.

(** The state attributes of the sample entity as a binary sensor. *)
Definition sample_attributes : gmap string (@PyVal sample_host) :=
  match (@device_state_attributes sample_const sample_host
           VictorSmartKillBinarySensor sample_entity).1 with
  | Return d => d
  | Raise _ => ∅
  end.

(** Unfolds the operations of the monad [M]. *)
Ltac unfold_M :=
  unfold try_except_Exception, mbind, M_bind, mret, M_ret, gets, modify, raise.

(** ** Facts about the builtins *)

Section builtins.

Lemma sorted_eq_iff_Permutation (l1 l2 : list Z) : sorted l1 = sorted l2 ↔ l1 ≡ₚ l2.
Proof.
  unfold sorted. split; intros E.
  - rewrite <-(merge_sort_Permutation Z.le l1), E. apply merge_sort_Permutation.
  - apply (Sorted_unique Z.le); try apply Sorted_merge_sort; try apply _.
    by rewrite !merge_sort_Permutation.
Qed.

Lemma Permutation_iff_multiset (l1 l2 : list Z) :
  l1 ≡ₚ l2 ↔ list_to_set_disj l1 =@{gmultiset Z} list_to_set_disj l2.
Proof.
  split; [by intros ->|].
  revert l2. induction l1 as [|x l1 IH]; intros l2 E.
  - destruct l2 as [|y l2]; [done|].
    rewrite list_to_set_disj_nil, list_to_set_disj_cons in E. multiset_solver.
  - assert (x ∈ l2) as Hx.
    { apply (elem_of_list_to_set_disj (A:=Z)).
      rewrite <-E, list_to_set_disj_cons. multiset_solver. }
    apply list_elem_of_split in Hx as (k1 & k2 & ->).
    rewrite <-Permutation_middle. constructor. apply IH.
    rewrite list_to_set_disj_cons in E.
    rewrite list_to_set_disj_app, list_to_set_disj_cons in E.
    rewrite list_to_set_disj_app. multiset_solver.
Qed.

Lemma next_filter_first {A} (p : A → bool) (l : list A) :
  (∃ l1 x l2, l = l1 ++ x :: l2 ∧ p x = true ∧ Forall (λ y, p y = false) l1
              ∧ next_filter p l = Return x)
  ∨ (Forall (λ y, p y = false) l ∧ next_filter p l = Raise StopIteration).
Proof.
  induction l as [|y l IH]; simpl.
  - right. by split.
  - destruct (p y) eqn:Hy.
    + left. exists [], y, l. by repeat split.
    + destruct IH as [(l1 & x & l2 & -> & Hx & Hl1 & Hn)|[Hl Hn]].
      * left. exists (y :: l1), x, l2. repeat split; auto.
      * right. split; auto.
Qed.

End builtins.

(** ** The update cycle *)

Section Verification.
Context `{Const, Host}.

Lemma _get_traps_run (api : Outcome (list Trap)) (w : World) :
  (_get_traps api w).1 = api ∧ self (_get_traps api w).2 = self w
  ∧ bus (_get_traps api w).2 = bus w.
Proof.
  unfold _get_traps, logger_debug. unfold_M.
  destruct api as [traps|e]; simpl; [done|].
  destruct (is_Exception e); simpl; done.
Qed.

Lemma async_update_data_run (api : Outcome (list Trap)) (w : World) :
  (async_update_data api w).1 = updated api
  ∧ self (async_update_data api w).2 = self w
  ∧ bus (async_update_data api w).2 = bus w ++ fired (data (self w)) api.
Proof.
  destruct w as [c b l].
  unfold async_update_data, logger_debug, async_fire, iter_data, fired, updated. unfold_M.
  simpl.
  destruct (data c) as [[|t d]|] eqn:Hd; simpl; rewrite ?Hd; simpl.
  all: match goal with |- context [_get_traps ?a ?w0] =>
         pose proof (_get_traps_run a w0) as (Hr & Hs & Hb);
         destruct (_get_traps a w0) as [r w1] end.
  all: simpl in *; subst r.
  all: destruct api as [traps|e]; simpl.
  all: try destruct (is_Exception e); try case_bool_decide; simpl.
  all: rewrite ?app_nil_r, ?Hs, ?Hb; done.
Qed.

Lemma fired_singleton (d : option (list Trap)) (api : Outcome (list Trap)) (ev : Event) :
  fired d api = [ev] →
  ∃ t l traps, d = Some (t :: l) ∧ api = Return traps
    ∧ sorted (id <$> t :: l) ≠ sorted (id <$> traps)
    ∧ ev = trap_list_changed (sorted (id <$> t :: l)) (sorted (id <$> traps)).
Proof.
  unfold fired. destruct d as [[|t l]|], api as [traps|e]; try discriminate.
  case_bool_decide; [|discriminate]. intros [= <-]. by exists t, l, traps.
Qed.

(** C1.  With a non-empty stored list from the previous fetch,
    [async_update_data] raises the trap-list-changed event exactly when the
    fetch returns a list whose sorted identifiers differ from the sorted
    identifiers of the stored list; when the two sorted sequences are equal
    the bus is left as it was. *)
Theorem async_update_data_raises_iff_sorted_ids_differ
    (w : World) (previous : list Trap) (api : Outcome (list Trap)) :
  data (self w) = Some previous → previous ≠ [] →
  let w' := (async_update_data api w).2 in
  (raises_trap_list_changed w w' ↔
     ∃ traps, api = Return traps ∧ sorted (id <$> previous) ≠ sorted (id <$> traps))
  ∧ (∀ traps, api = Return traps →
       sorted (id <$> previous) = sorted (id <$> traps) → bus w' = bus w).
Proof.
  intros Hd Hne w'. destruct (async_update_data_run api w) as (_ & _ & Hb).
  fold w' in Hb. rewrite Hd in Hb. split; [split|].
  - intros (ev & _ & Hev). rewrite Hev in Hb. apply app_inv_head in Hb.
    symmetry in Hb. apply fired_singleton in Hb as (t & l & traps & [= ->] & -> & Hs & _).
    by exists traps.
  - intros (traps & -> & Hs). destruct previous as [|t l]; [done|].
    unfold fired in Hb. rewrite bool_decide_true in Hb by done.
    eexists. by split; [|exact Hb].
  - intros traps -> Hs. destruct previous as [|t l]; [done|].
    unfold fired in Hb. rewrite bool_decide_false in Hb by (by intros ?).
    by rewrite app_nil_r in Hb.
Qed.

(** C2, as the code has it.  An update cycle whose fetch succeeds returns the
    fetched list itself: same records, same order, same multiplicities,
    whatever the previous fetch stored. *)
Theorem async_update_data_returns_fetched (w : World) (traps : list Trap) :
  (async_update_data (Return traps) w).1 = Return traps.
Proof. by destruct (async_update_data_run (Return traps) w) as (-> & _). Qed.

(** C3.  Whenever an update cycle raises the trap-list-changed event, the
    event data maps ["previous_traps"] to the sorted identifiers of the
    stored list and ["current_traps"] to the sorted identifiers of the
    fetched list, and has no other key. *)
Theorem trap_list_changed_payload (w : World) (api : Outcome (list Trap)) (ev : Event) :
  event_type ev = EVENT_TRAP_LIST_CHANGED →
  bus (async_update_data api w).2 = bus w ++ [ev] →
  ∃ previous traps,
    data (self w) = Some previous ∧ api = Return traps
    ∧ event_data ev !! "previous_traps" = Some (sorted (id <$> previous))
    ∧ event_data ev !! "current_traps" = Some (sorted (id <$> traps))
    ∧ ∀ key, key ≠ "previous_traps" → key ≠ "current_traps" → event_data ev !! key = None.
Proof.
  intros _ Hev. destruct (async_update_data_run api w) as (_ & _ & Hb).
  rewrite Hev in Hb. apply app_inv_head in Hb. symmetry in Hb.
  apply fired_singleton in Hb as (t & l & traps & Hd & -> & _ & ->).
  exists (t :: l), traps. repeat split; try done.
  intros key H1 H2. simpl. by rewrite !lookup_insert_ne.
Qed.

(** C4.  When the stored data is absent or is the empty list, an update cycle
    puts nothing on the bus, whatever the fetch yields. *)
Theorem no_event_without_previous_traps (w : World) (api : Outcome (list Trap)) :
  data (self w) = None ∨ data (self w) = Some [] →
  bus (async_update_data api w).2 = bus w.
Proof.
  intros Hd. destruct (async_update_data_run api w) as (_ & _ & ->).
  destruct Hd as [-> | ->]; simpl; by rewrite app_nil_r.
Qed.

(** What [async_refresh] leaves in [self.data]: the fetched list after a
    successful fetch, the stored data after a failed one. *)
Lemma async_refresh_data (w : World) (api : Outcome (list Trap)) :
  data (self (async_refresh api w).2) =
    match api with
    | Return traps => Some traps
    | Raise _ => data (self w)
    end.
Proof.
  unfold async_refresh, super_async_refresh, logger_debug. unfold_M.
  destruct (async_update_data_run api w) as (Hr & Hs & _).
  destruct (async_update_data api w) as [r w1]. simpl in *. subst r.
  destruct api as [traps|e]; simpl; [done|].
  destruct (is_Exception e) eqn:He; simpl; rewrite ?He; simpl; by rewrite ?Hs.
Qed.

(** C5.  [async_update_data] raises [UpdateFailed] if and only if the fetch
    raises an [Exception], and the raised error wraps that exception.  In
    that case nothing is put on the bus, no list is returned, the
    coordinator object is as before, and [self.data] after the surrounding
    [async_refresh] is the previously stored data. *)
Theorem update_failed_iff_fetch_raises (w : World) (api : Outcome (list Trap)) :
  let r := (async_update_data api w).1 in
  let w' := (async_update_data api w).2 in
  ((∃ cause, r = Raise (UpdateFailed cause)) ↔ (∃ e, api = Raise e ∧ is_Exception e = true))
  ∧ match api with
    | Raise e =>
        r = Raise (if is_Exception e then UpdateFailed e else e)
        ∧ bus w' = bus w
        ∧ data (self (async_refresh api w).2) = data (self w)
    | Return traps => r = Return traps
    end
  ∧ self w' = self w.
Proof.
  intros r w'. destruct (async_update_data_run api w) as (Hr & Hs & Hb).
  fold r in Hr. fold w' in Hs, Hb. rewrite Hr. split; [|split; [|done]].
  - unfold updated. split.
    + intros [cause Hc]. destruct api as [traps|e]; [done|].
      exists e. split; [done|]. by destruct e.
    + intros (e & -> & ->). by exists e.
  - destruct api as [traps|e]; simpl; [done|]. repeat split.
    + rewrite Hb. destruct (data (self w)) as [[|??]|]; simpl; by rewrite app_nil_r.
    + by rewrite async_refresh_data.
Qed.

(** The comparison of sorted identifier sequences agrees with comparing the
    identifier sets as long as neither list repeats an identifier. *)
Lemma sorted_ids_differ_iff_sets_differ (previous traps : list Trap) :
  NoDup (id <$> previous) → NoDup (id <$> traps) →
  sorted (id <$> previous) ≠ sorted (id <$> traps)
  ↔ list_to_set (id <$> previous) ≠@{gset Z} list_to_set (id <$> traps).
Proof.
  intros Hp Ht. rewrite sorted_eq_iff_Permutation. split; intros Hne E; apply Hne.
  - apply NoDup_Permutation; [done..|]. intros x.
    by rewrite <-!(elem_of_list_to_set (C:=gset Z)), E.
  - by rewrite E.
Qed.

(** C6, as the code has it.  The comparison of sorted identifier sequences
    yields 'different' exactly when the multisets of trap identifiers of the
    two lists differ: identifiers are compared with their multiplicities. *)
Theorem sorted_ids_differ_iff_multisets_differ (previous traps : list Trap) :
  sorted (id <$> previous) ≠ sorted (id <$> traps)
  ↔ list_to_set_disj (id <$> previous) ≠@{gmultiset Z} list_to_set_disj (id <$> traps).
Proof. by rewrite sorted_eq_iff_Permutation, Permutation_iff_multiset. Qed.

(** ** Entity adapters *)

(** C7.  [is_on] returns a boolean, and it returns true if and only if the
    trap's [trapstatistics.kills_present] is greater than zero. *)
Theorem is_on_iff_kills_present (e : Entity) :
  ∃ b, (is_on e).1 = Return b ∧ (b = true ↔ (kills_present (trapstatistics (trap e)) > 0)%Z).
Proof.
  eexists. split; [reflexivity|]. apply bool_decide_eq_true.
Qed.

(** C8.  Evaluating any of the properties [name], [unique_id], [device_info],
    [device_state_attributes] and [is_on] leaves the entity object as it was:
    the trap record and the coordinator's stored list are unchanged, whether
    the property returns or raises. *)
Theorem properties_read_only `{EntityClass} (p : Property) (e : Entity) :
  let e' := (getattr p e).2 in
  e' = e ∧ trap e' = trap e ∧ data (coordinator e') = data (coordinator e).
Proof.
  intros e'. assert (e' = e) as ->; [|done]. unfold e'.
  destruct p; try reflexivity.
  unfold getattr, device_state_attributes, fmap, M_fmap, mbind, M_bind, gets, lift. simpl.
  destruct (float (lat (trap e))); [|done].
  destruct (float (long (trap e))); [|done].
  destruct (as_local (last_report_date (trapstatistics (trap e)))); [|done].
  by destruct (as_local (last_kill_date (trapstatistics (trap e)))).
Qed.

(** C9.  For a coordinator whose data is a list: if some trap has the given
    id, the constructor sets [self.trap] to the first such trap; if none has,
    it raises [StopIteration]; in no case does it raise the [ValueError] of
    the 'not found' branch. *)
Theorem entity_init_first_match_or_StopIteration
    (c : Coordinator) (l : list Trap) (trap_id : Z) :
  data c = Some l →
  ((∃ l1 t l2, l = l1 ++ t :: l2 ∧ id t = trap_id ∧ Forall (λ u, id u ≠ trap_id) l1
       ∧ VictorSmartKillEntity__init__ trap_id c = Return {| coordinator := c; trap := t |})
   ∨ (Forall (λ u, id u ≠ trap_id) l
       ∧ VictorSmartKillEntity__init__ trap_id c = Raise StopIteration))
  ∧ ∀ msg, VictorSmartKillEntity__init__ trap_id c ≠ Raise (ValueError msg).
Proof.
  intros Hd. unfold VictorSmartKillEntity__init__. rewrite Hd.
  destruct (next_filter_first (λ t, bool_decide (id t = trap_id)) l)
    as [(l1 & t & l2 & -> & Ht & Hl1 & ->)|[Hl ->]]; simpl.
  - split; [|done]. left. exists l1, t, l2.
    repeat split; [by apply bool_decide_eq_true in Ht|].
    eapply Forall_impl; [|exact Hl1]. intros u Hu. by apply bool_decide_eq_false in Hu.
  - split; [|done]. right. split; [|done].
    eapply Forall_impl; [|exact Hl]. intros u Hu. by apply bool_decide_eq_false in Hu.
Qed.

(** ** The update interval *)

Lemma async_refresh_update_interval (w : World) (api : Outcome (list Trap)) :
  update_interval (self (async_refresh api w).2) = update_interval (self w).
Proof.
  unfold async_refresh, super_async_refresh, logger_debug. unfold_M.
  destruct (async_update_data_run api w) as (Hr & Hs & _).
  destruct (async_update_data api w) as [r w1]. simpl in *. subst r.
  destruct api as [traps|e]; simpl; [by rewrite Hs|].
  destruct (is_Exception e) eqn:He; simpl; rewrite ?He; simpl; by rewrite ?Hs.
Qed.

Lemma run_op_update_interval (o : Op) (w : World) :
  update_interval (self (run_op o w)) = update_interval (self w).
Proof.
  destruct o as [api|api|cb|]; simpl.
  - by destruct (async_update_data_run api w) as (_ & -> & _).
  - apply async_refresh_update_interval.
  - reflexivity.
  - reflexivity.
Qed.

Lemma forward_platforms_run (entry : ConfigEntry) (ps : list string)
    (c : Coordinator) (h : HomeAssistant) :
  ∃ c' h', forward_platforms entry ps c h = (Return c', h')
    ∧ update_interval c' = update_interval c ∧ hass_data h' = hass_data h.
Proof.
  revert c h. induction ps as [|p ps IH]; intros c h; simpl.
  - by exists c, h.
  - destruct (default true (options entry !! p)).
    + unfold async_create_task. unfold_M.
      match goal with |- context [forward_platforms _ _ ?c1 ?h1] =>
        destruct (IH c1 h1) as (c' & h' & -> & Hc & Hh) end.
      by exists c', h'.
    + apply IH.
Qed.

Lemma async_setup_entry_update_interval
    (entry : ConfigEntry) (api : Outcome (list Trap)) (h h' : HomeAssistant) (c : Coordinator) :
  async_setup_entry entry api h = (Return true, h') →
  registered h' entry = Some c →
  update_interval c = SCAN_INTERVAL.
Proof.
  unfold async_setup_entry, registered, hass_log_append, set_hass_data,
    add_update_listener, async_listen_once, call. unfold_M.
  simpl. case_bool_decide; simpl.
  all: match goal with |- context [async_refresh ?a ?w0] =>
         pose proof (async_refresh_update_interval w0 a) as Hi;
         destruct (async_refresh a w0) as [r w1] end; simpl in Hi.
  all: destruct r as [[]|e]; [|discriminate].
  all: destruct (last_update_success (self w1)); simpl; [|discriminate].
  all: match goal with |- context [forward_platforms ?e ?ps ?c1 ?h1] =>
         destruct (forward_platforms_run e ps c1 h1) as (c' & h2 & -> & Hc & Hh) end.
  all: simpl; intros [= <-]; simpl; rewrite lookup_insert_eq; simpl.
  all: rewrite lookup_insert_eq; intros [= <-]; congruence.
Qed.

(** C10.  Over its whole lifetime, from the object [async_setup_entry]
    constructs and registers through every later call of its methods, the
    coordinator's update interval is the constant [SCAN_INTERVAL], which is
    five minutes. *)
Theorem update_interval_fixed (c : Coordinator) :
  lifetime c →
  update_interval c = SCAN_INTERVAL ∧ total_seconds (update_interval c) = (5 * 60)%Z.
Proof.
  intros Hl. assert (update_interval c = SCAN_INTERVAL) as E; [|by rewrite E].
  induction Hl as [entry api h h' c Hs Hr|c o b l Hl IH].
  - by eapply async_setup_entry_update_interval.
  - by rewrite run_op_update_interval.
Qed.

End Verification.

(** ** More on the update cycle and on refreshing *)

Section Cycles.
Context `{Const, Host}.

Lemma _get_traps_log (api : Outcome (list Trap)) (w : World) :
  ∃ recs, log (_get_traps api w).2 = log w ++ recs.
Proof.
  unfold _get_traps, logger_debug. unfold_M.
  destruct api as [traps|e]; simpl; [by eexists|].
  destruct (is_Exception e); simpl; [by eexists|].
  exists []. by rewrite app_nil_r.
Qed.

Lemma async_update_data_log (api : Outcome (list Trap)) (w : World) :
  ∃ recs, log (async_update_data api w).2 = log w ++ recs.
Proof.
  destruct w as [c b l].
  unfold async_update_data, logger_debug, async_fire, iter_data. unfold_M. simpl.
  destruct (data c) as [[|t d]|] eqn:Hd; simpl; rewrite ?Hd; simpl.
  all: match goal with |- context [_get_traps ?a ?w0] =>
         destruct (_get_traps_log a w0) as [recs Hl];
         pose proof (_get_traps_run a w0) as (Hr & _ & _);
         destruct (_get_traps a w0) as [r w1] end.
  all: simpl in *; subst r; rewrite <-?(assoc_L (++)) in Hl.
  all: destruct api as [traps|e]; simpl.
  all: try destruct (is_Exception e); try case_bool_decide; simpl.
  all: rewrite ?Hl, <-?(assoc_L (++)); by eexists.
Qed.

Lemma async_refresh_run (api : Outcome (list Trap)) (w : World) :
  (async_refresh api w).1
    = match api with
      | Return _ => Return tt
      | Raise e => if is_Exception e then Return tt else Raise e
      end
  ∧ self (async_refresh api w).2
    = match api with
      | Return traps => set_last_update_success true (set_data (Some traps) (self w))
      | Raise e => if is_Exception e then set_last_update_success false (self w) else self w
      end
  ∧ bus (async_refresh api w).2 = bus w ++ fired (data (self w)) api
  ∧ ∃ recs, log (async_refresh api w).2 = log w ++ recs.
Proof.
  unfold async_refresh, super_async_refresh, logger_debug. unfold_M.
  destruct (async_update_data_run api w) as (Hr & Hs & Hb).
  destruct (async_update_data_log api w) as [recs Hl].
  destruct (async_update_data api w) as [r w1]. simpl in *. subst r.
  destruct api as [traps|e]; simpl.
  - rewrite Hs, Hb, Hl, <-(assoc_L (++)). repeat split; by eexists.
  - destruct (is_Exception e) eqn:He; simpl; rewrite ?He; simpl.
    + rewrite Hs, Hb, Hl, <-(assoc_L (++)). repeat split; by eexists.
    + rewrite Hs, Hb, Hl. repeat split; by eexists.
Qed.

(** X1.  No method of the coordinator removes or rewrites what is on the bus
    or in the log: each call only appends, and it appends at most one event,
    of the trap-list-changed type. *)
Theorem methods_only_append (o : Op) (w : World) :
  ∃ evs recs,
    bus (run_op o w) = bus w ++ evs ∧ log (run_op o w) = log w ++ recs
    ∧ length evs ≤ 1
    ∧ Forall (λ ev, event_type ev = EVENT_TRAP_LIST_CHANGED) evs.
Proof.
  assert (∀ d api, length (fired d api) ≤ 1
            ∧ Forall (λ ev, event_type ev = EVENT_TRAP_LIST_CHANGED) (fired d api)) as Hf.
  { intros d api. unfold fired. destruct d as [[|t l]|], api as [traps|e]; simpl; auto.
    case_bool_decide; simpl; auto. }
  destruct o as [api|api|cb|]; simpl.
  - destruct (async_update_data_run api w) as (_ & _ & Hb).
    destruct (async_update_data_log api w) as [recs Hl].
    exists (fired (data (self w)) api), recs. by destruct (Hf (data (self w)) api).
  - destruct (async_refresh_run api w) as (_ & _ & Hb & recs & Hl).
    exists (fired (data (self w)) api), recs. by destruct (Hf (data (self w)) api).
  - exists [], []. rewrite !app_nil_r. repeat split; simpl; auto.
  - exists [], [{| levelname := DEBUG; msg := "Close API client."; args := [];
                   exc_info := false |}].
    rewrite app_nil_r. repeat split; simpl; auto.
Qed.

(** X2.  The payload of a raised event: the two identifier lists are sorted
    in ascending order, they differ, and the previous one is not empty. *)
Theorem raised_event_lists_sorted_and_distinct
    (w : World) (api : Outcome (list Trap)) (ev : Event) :
  bus (async_update_data api w).2 = bus w ++ [ev] →
  ∃ previous current,
    event_data ev !! "previous_traps" = Some previous
    ∧ event_data ev !! "current_traps" = Some current
    ∧ previous ≠ current ∧ previous ≠ []
    ∧ Sorted Z.le previous ∧ Sorted Z.le current.
Proof.
  intros Hev. destruct (async_update_data_run api w) as (_ & _ & Hb).
  rewrite Hev in Hb. apply app_inv_head in Hb. symmetry in Hb.
  apply fired_singleton in Hb as (t & l & traps & Hd & -> & Hne & ->).
  exists (sorted (id <$> t :: l)), (sorted (id <$> traps)).
  repeat split; try done; try apply Sorted_merge_sort; try apply _.
  intros E. assert (sorted (id <$> t :: l) ≡ₚ id <$> t :: l) as Hp
    by apply merge_sort_Permutation.
  rewrite E in Hp. by apply Permutation_nil_cons in Hp.
Qed.

(** X3.  Change detection looks at identifiers only, without their order:
    when the fetched identifiers are a rearrangement of the stored ones, no
    event is raised, whatever else changed in the records, and the fetched
    list is returned. *)
Theorem same_ids_raise_no_event (w : World) (previous traps : list Trap) :
  data (self w) = Some previous →
  id <$> previous ≡ₚ id <$> traps →
  bus (async_update_data (Return traps) w).2 = bus w
  ∧ (async_update_data (Return traps) w).1 = Return traps.
Proof.
  intros Hd Hp. destruct (async_update_data_run (Return traps) w) as (-> & _ & ->).
  split; [|done]. rewrite Hd. unfold fired. destruct previous as [|t l]; simpl.
  - by rewrite app_nil_r.
  - apply sorted_eq_iff_Permutation in Hp. rewrite bool_decide_false; [|by intros ?].
    by rewrite app_nil_r.
Qed.

(** X4.  What a refresh leaves behind.  A fetch that returns is stored in
    [self.data] and marks the update successful; a fetch that raises an
    [Exception] does not make [async_refresh] raise: it marks the update
    failed and keeps the stored data; any other exception passes through
    and leaves the coordinator as it was.  Listeners, platforms, client and
    update interval are never touched. *)
Theorem async_refresh_outcome (w : World) (api : Outcome (list Trap)) :
  let r := (async_refresh api w).1 in
  let c' := self (async_refresh api w).2 in
  match api with
  | Return traps =>
      r = Return tt ∧ data c' = Some traps ∧ last_update_success c' = true
  | Raise e =>
      if is_Exception e
      then r = Return tt ∧ data c' = data (self w) ∧ last_update_success c' = false
      else r = Raise e ∧ c' = self w
  end
  ∧ _listeners c' = _listeners (self w) ∧ platforms c' = platforms (self w)
  ∧ _client c' = _client (self w) ∧ update_interval c' = update_interval (self w).
Proof.
  intros r c'. destruct (async_refresh_run api w) as (Hr & Hs & _).
  fold r in Hr. fold c' in Hs. rewrite Hr, Hs.
  destruct api as [traps|e]; [done|]. by destruct (is_Exception e).
Qed.

(** X5.  A stable trap list is announced at most once: when the stored list
    holds [traps], any run of refreshes that each fail or fetch the same
    identifiers in any order puts nothing on the bus. *)
Theorem stable_trap_list_raises_nothing
    (w : World) (traps : list Trap) (apis : list (Outcome (list Trap))) :
  data (self w) = Some traps →
  Forall (λ api, match api with
                 | Return fetched => id <$> fetched ≡ₚ id <$> traps
                 | Raise e => is_Exception e = true
                 end) apis →
  bus (run_ops (op_async_refresh <$> apis) w) = bus w.
Proof.
  intros Hd Ha.
  assert (∃ stored, data (self w) = Some stored ∧ id <$> stored ≡ₚ id <$> traps)
    as Hinv by (by exists traps).
  clear Hd. revert w Hinv.
  induction Ha as [|api apis Hapi _ IH]; intros w (stored & Hd & Hp); [done|].
  simpl. destruct (async_refresh_run api w) as (_ & Hs & Hb & _).
  rewrite IH, Hb, Hd.
  - unfold fired. destruct api as [fetched|e]; [|by destruct stored; rewrite app_nil_r].
    destruct stored as [|t l]; [by rewrite app_nil_r|].
    rewrite bool_decide_false, app_nil_r; [done|].
    intros Hne. apply Hne, sorted_eq_iff_Permutation. by rewrite Hp, Hapi.
  - rewrite Hs. destruct api as [fetched|e]; simpl.
    + by exists fetched.
    + rewrite Hapi. by exists stored.
Qed.

(** X6.  Comparison is against the last successful fetch: after a refresh
    that stored [traps1] and a refresh that failed, a refresh fetching other
    identifiers raises the event with the identifiers of [traps1] as the
    previous ones. *)
Theorem change_after_failed_refresh_is_detected
    (w : World) (traps1 traps2 : list Trap) (e : PyExc) :
  traps1 ≠ [] → is_Exception e = true →
  sorted (id <$> traps1) ≠ sorted (id <$> traps2) →
  let w1 := run_ops [op_async_refresh (Return traps1); op_async_refresh (Raise e)] w in
  bus (run_op (op_async_refresh (Return traps2)) w1)
    = bus w1 ++ [trap_list_changed (sorted (id <$> traps1)) (sorted (id <$> traps2))].
Proof.
  intros Hne He Hs w1. simpl.
  destruct (async_refresh_run (Return traps2) w1) as (_ & _ & -> & _). f_equal.
  assert (data (self w1) = Some traps1) as ->.
  { unfold w1. simpl.
    destruct (async_refresh_run (Raise e) (async_refresh (Return traps1) w).2)
      as (_ & -> & _).
    rewrite He. simpl.
    by destruct (async_refresh_run (Return traps1) w) as (_ & -> & _). }
  unfold fired. destruct traps1 as [|t l]; [done|]. by rewrite bool_decide_true.
Qed.

End Cycles.

(** ** Setting up, unloading and reloading a config entry *)

Section Entries.
Context `{Const, Host}.


Lemma forward_platforms_eq (entry : ConfigEntry) (ps : list string)
    (c : Coordinator) (h : HomeAssistant) :
  let enabled := filter (λ p, default true (options entry !! p) = true) ps in
  ∃ h', forward_platforms entry ps c h
          = (Return (foldl (λ c p, platforms_append p c) c enabled), h')
    ∧ tasks h' = tasks h ++ ((λ p, (entry_id entry, p)) <$> enabled)
    ∧ hass_data h' = hass_data h ∧ hass_bus h' = hass_bus h
    ∧ hass_log h' = hass_log h ∧ update_listeners h' = update_listeners h
    ∧ listen_once h' = listen_once h.
Proof.
  revert c h. induction ps as [|p ps IH]; intros c h; simpl.
  - exists h. by rewrite app_nil_r.
  - destruct (default true (options entry !! p)) eqn:Hp.
    + rewrite filter_cons_True by done. unfold async_create_task. unfold_M.
      match goal with |- context [forward_platforms _ _ ?c1 ?h1] =>
        destruct (IH c1 h1) as (h' & -> & Ht & ? & ? & ? & ? & ?) end.
      exists h'. simpl in *. rewrite Ht, <-(assoc_L (++)). by repeat split.
    + rewrite filter_cons_False by (by rewrite Hp). apply IH.
Qed.

(** One run of [async_setup_entry], field by field. *)
Lemma async_setup_entry_run (entry : ConfigEntry) (api : Outcome (list Trap))
    (h : HomeAssistant) :
  let c0 := Coordinator__init__ SCAN_INTERVAL
              (entry_data entry !! CONF_USERNAME) (entry_data entry !! CONF_PASSWORD) in
  let r := async_setup_entry entry api h in
  hass_bus r.2 = hass_bus h
  ∧ match api with
    | Return traps =>
        r.1 = Return true
        ∧ hass_data r.2
            = <[DOMAIN := <[entry_id entry :=
                  foldl (λ c p, platforms_append p c)
                    (set_last_update_success true (set_data (Some traps) c0))
                    (enabled_platforms entry)]>
                (default ∅ (hass_data h !! DOMAIN))]> (hass_data h)
        ∧ tasks r.2 = tasks h ++ ((λ p, (entry_id entry, p)) <$> enabled_platforms entry)
        ∧ update_listeners r.2 = update_listeners h ++ [entry_id entry]
        ∧ listen_once r.2 = listen_once h ++ [EVENT_TRAP_LIST_CHANGED]
    | Raise e =>
        r.1 = Raise (if is_Exception e then ConfigEntryNotReady else e)
        ∧ hass_data r.2
            = (if decide (hass_data h !! DOMAIN = None)
               then <[DOMAIN := ∅]> (hass_data h) else hass_data h)
        ∧ tasks r.2 = tasks h
        ∧ update_listeners r.2 = update_listeners h
        ∧ listen_once r.2 = listen_once h
    end.
Proof.
  intros c0 r. unfold r, async_setup_entry, enabled_platforms, hass_log_append,
    set_hass_data, add_update_listener, async_listen_once, call. unfold_M.
  fold c0. simpl.
  case_bool_decide as Hd; simpl.
  all: match goal with |- context [async_refresh ?a ?w0] =>
         destruct (async_refresh_run a w0) as (Hr & Hs & Hb & _);
         destruct (async_refresh a w0) as [r1 w1] end; simpl in *; subst r1.
  all: rewrite app_nil_r in Hb.
  all: destruct api as [traps|e]; simpl.
  all: try (destruct (is_Exception e) eqn:He; simpl).
  all: rewrite ?Hs; simpl.
  all: try match goal with |- context [forward_platforms ?e ?ps ?c1 ?h1] =>
         destruct (forward_platforms_eq e ps c1 h1)
           as (h2 & -> & Ht & Hhd & Hhb & Hhl & Hul & Hlo) end.
  all: simpl in *; rewrite ?Hhd, ?Hhb, ?Ht, ?Hul, ?Hlo.
  all: rewrite ?lookup_insert_eq, ?insert_insert_eq, ?Hd; simpl.
  all: try rewrite decide_True by done; try rewrite decide_False by done.
  all: done.
Qed.

Lemma registered_alt (h : HomeAssistant) (entry : ConfigEntry) :
  registered h entry = default ∅ (hass_data h !! DOMAIN) !! entry_id entry.
Proof. unfold registered. by destruct (hass_data h !! DOMAIN). Qed.



(** X9.  A setup that fails registers nothing: every entry is registered
    after it as it was before, and no task and no listener is added. *)
Theorem failed_setup_registers_nothing (entry : ConfigEntry) (e : PyExc)
    (h : HomeAssistant) :
  let h' := (async_setup_entry entry (Raise e) h).2 in
  (∀ entry', registered h' entry' = registered h entry')
  ∧ tasks h' = tasks h ∧ update_listeners h' = update_listeners h
  ∧ listen_once h' = listen_once h.
Proof.
  intros h'. destruct (async_setup_entry_run entry (Raise e) h)
    as (_ & _ & Hd & Ht & Hu & Hl). fold h' in Hd, Ht, Hu, Hl.
  split; [|done]. intros entry'. rewrite !registered_alt, Hd.
  case_decide as Hn; [|done]. by rewrite lookup_insert_eq, Hn.
Qed.

(** X10.  Setting up one entry leaves the registration of every other entry
    as it was, whatever the fetch yields. *)
Theorem async_setup_entry_other_entries (entry entry' : ConfigEntry)
    (api : Outcome (list Trap)) (h : HomeAssistant) :
  entry_id entry' ≠ entry_id entry →
  registered (async_setup_entry entry api h).2 entry' = registered h entry'.
Proof.
  intros Hne. destruct api as [traps|e].
  - destruct (async_setup_entry_run entry (Return traps) h) as (_ & _ & Hd & _).
    rewrite !registered_alt, Hd, lookup_insert_eq. simpl. by rewrite lookup_insert_ne.
  - destruct (async_setup_entry_run entry (Raise e) h) as (_ & _ & Hd & _).
    rewrite !registered_alt, Hd. case_decide as Hn; [|done].
    by rewrite lookup_insert_eq, Hn.
Qed.

(** One run of [async_unload_entry], field by field. *)
Lemma async_unload_entry_run (entry : ConfigEntry) (unload : string → bool)
    (h : HomeAssistant) :
  let r := async_unload_entry entry unload h in
  hass_bus r.2 = hass_bus h ∧ tasks r.2 = tasks h
  ∧ update_listeners r.2 = update_listeners h ∧ listen_once r.2 = listen_once h
  ∧ match registered h entry with
    | None => (∃ key, r.1 = Raise (Exc "KeyError" key)) ∧ hass_data r.2 = hass_data h
    | Some c =>
        let unloaded := forallb unload (filter (λ p, p ∈ platforms c) PLATFORMS) in
        r.1 = Return (unloaded, if unloaded then aclose c else c)
        ∧ hass_data r.2
            = (if unloaded
               then <[DOMAIN := delete (entry_id entry) (default ∅ (hass_data h !! DOMAIN))]>
                      (hass_data h)
               else hass_data h)
    end.
Proof.
  intros r. unfold r, async_unload_entry, hass_data_pop, hass_data_getitem, registered,
    hass_log_append, set_hass_data, call, async_close, logger_debug. unfold_M. simpl.
  destruct (hass_data h !! DOMAIN) as [m|] eqn:Hd; simpl; [|by eauto 10].
  destruct (m !! entry_id entry) as [c|] eqn:Hc; simpl; [|by eauto 10].
  destruct (forallb unload _) eqn:Hu; simpl; [|done].
  rewrite Hd. simpl. rewrite Hc. simpl. by rewrite Hd.
Qed.

(** X11.  Unloading an entry that is not registered raises [KeyError] and
    changes neither the registrations nor the tasks and listeners. *)
Theorem unload_unregistered_entry_raises (entry : ConfigEntry)
    (unload : string → bool) (h : HomeAssistant) :
  registered h entry = None →
  let r := async_unload_entry entry unload h in
  (∃ key, r.1 = Raise (Exc "KeyError" key))
  ∧ hass_data r.2 = hass_data h ∧ tasks r.2 = tasks h
  ∧ update_listeners r.2 = update_listeners h ∧ listen_once r.2 = listen_once h.
Proof.
  intros Hr r. destruct (async_unload_entry_run entry unload h)
    as (_ & Ht & Hu & Hl & Hm). fold r in Ht, Hu, Hl, Hm.
  rewrite Hr in Hm. by destruct Hm.
Qed.

(** X12.  Unloading a registered entry returns [True] exactly when every
    platform of [PLATFORMS] that is in the coordinator's platform list
    unloads.  Then the entry is no longer registered and the coordinator's
    API client is closed, its data and platforms kept; otherwise the entry
    stays registered and the coordinator is untouched, its client open as
    before. *)
Theorem unload_registered_entry (entry : ConfigEntry) (unload : string → bool)
    (h : HomeAssistant) (c : Coordinator) :
  registered h entry = Some c →
  let r := async_unload_entry entry unload h in
  ∃ unloaded c',
    r.1 = Return (unloaded, c')
    ∧ (unloaded = true ↔ ∀ p, p ∈ PLATFORMS → p ∈ platforms c → unload p = true)
    ∧ if unloaded
      then registered r.2 entry = None ∧ is_closed (_client c') = true
           ∧ data c' = data c ∧ platforms c' = platforms c
      else registered r.2 entry = Some c ∧ c' = c.
Proof.
  intros Hr r. destruct (async_unload_entry_run entry unload h) as (_ & _ & _ & _ & Hm).
  fold r in Hm. rewrite Hr in Hm. simpl in Hm. destruct Hm as (Hres & Hd).
  eexists _, _. split; [exact Hres|]. split.
  - rewrite forallb_forall. split.
    + intros Hall p Hp Hc. apply Hall, list_elem_of_In, list_elem_of_filter. by split.
    + intros Hall p [Hc Hp]%list_elem_of_In%list_elem_of_filter. by apply Hall.
  - destruct (forallb unload _).
    + rewrite registered_alt, Hd, lookup_insert_eq. simpl. by rewrite lookup_delete_eq.
    + unfold registered in *. by rewrite Hd.
Qed.

(** X13.  Unloading one entry leaves the registration of every other entry
    as it was, and it removes neither an update listener nor a one-shot
    event listener that setup added. *)
Theorem async_unload_entry_other_entries (entry entry' : ConfigEntry)
    (unload : string → bool) (h : HomeAssistant) :
  entry_id entry' ≠ entry_id entry →
  let h' := (async_unload_entry entry unload h).2 in
  registered h' entry' = registered h entry'
  ∧ update_listeners h' = update_listeners h ∧ listen_once h' = listen_once h.
Proof.
  intros Hne h'. destruct (async_unload_entry_run entry unload h)
    as (_ & _ & Hu & Hl & Hm). fold h' in Hu, Hl, Hm. split; [|done].
  rewrite !registered_alt. destruct (registered h entry) as [c|].
  - simpl in Hm. destruct Hm as (_ & ->). destruct (forallb unload _); [|done].
    rewrite lookup_insert_eq. simpl. by rewrite lookup_delete_ne.
  - by destruct Hm as (_ & ->).
Qed.




(** X16.  Reloading an entry that is not registered raises [KeyError] and
    sets nothing up: registrations, tasks and listeners are as before. *)
Theorem reload_unregistered_entry (entry : ConfigEntry) (unload : string → bool)
    (api : Outcome (list Trap)) (h : HomeAssistant) :
  registered h entry = None →
  let r := async_reload_entry entry unload api h in
  (∃ key, r.1 = Raise (Exc "KeyError" key))
  ∧ hass_data r.2 = hass_data h ∧ tasks r.2 = tasks h
  ∧ update_listeners r.2 = update_listeners h ∧ listen_once r.2 = listen_once h.
Proof.
  intros Hc r. unfold r, async_reload_entry. unfold_M.
  destruct (async_unload_entry_run entry unload h) as (_ & Ht & Hu & Hl & Hm).
  rewrite Hc in Hm. destruct Hm as ([key Hres] & Hd).
  destruct (async_unload_entry entry unload h) as [ru h1]. simpl in *. subst ru.
  split; [by exists key|done].
Qed.


End Entries.

(** ** More on the entity adapters and the binary sensor platform *)

Section Adapters.
Context {const : Const} {host : Host}.

Lemma String_length_app (s t : string) :
  String.length (s +:+ t) = String.length s + String.length t.
Proof. induction s as [|a s IH]; simpl; [done|]. by rewrite IH. Qed.

Lemma String_app_inj_r (t s1 s2 : string) : s1 +:+ t = s2 +:+ t → s1 = s2.
Proof.
  revert s2. induction s1 as [|a s1 IH]; intros [|b s2] E.
  - done.
  - apply (f_equal String.length) in E. rewrite !String_length_app in E.
    simpl in E. lia.
  - apply (f_equal String.length) in E. rewrite !String_length_app in E.
    simpl in E. lia.
  - injection E as -> E. f_equal. by apply IH.
Qed.

Lemma exclude_keys_lookup (d : gmap string PyVal) (excluded : list string) (key : string) :
  exclude_keys d excluded !! key = if decide (key ∈ excluded) then None else d !! key.
Proof.
  unfold exclude_keys. revert d. induction excluded as [|k ks IH]; intros d; cbn [foldl].
  - case_decide as Hk; [by apply elem_of_nil in Hk|done].
  - rewrite IH.
    assert ((if bool_decide (is_Some (d !! k)) then delete k d else d) = delete k d) as ->.
    { case_bool_decide as Hk; [done|]. symmetry. apply delete_id.
      by apply eq_None_not_Some. }
    destruct (decide (key = k)) as [->|Hne].
    + rewrite lookup_delete_eq. rewrite (decide_True (P:=k ∈ k :: ks)) by left.
      by case_decide.
    + rewrite lookup_delete_ne by done.
      case_decide as H1; case_decide as H2; try done.
      * exfalso. apply H2. by right.
      * by apply elem_of_cons in H2 as [?|?].
Qed.

Lemma unique_id_trap_id {cls : EntityClass} (e1 e2 : Entity) :
  (unique_id e1).1 = (unique_id e2).1 ↔ id (trap e1) = id (trap e2).
Proof.
  unfold unique_id. unfold_M. simpl. split; [|by intros ->].
  intros [= E]. apply (inj _), (inj _) in E.
  apply String_app_inj_r in E. by apply (inj pretty) in E.
Qed.

(** X18.  [unique_id] separates traps: two entities of the same class have
    equal unique ids exactly when their traps have equal identifiers. *)
Theorem unique_id_eq_iff_trap_id_eq {cls : EntityClass} (e1 e2 : Entity) :
  (unique_id e1).1 = (unique_id e2).1 ↔ id (trap e1) = id (trap e2).
Proof.
  apply unique_id_trap_id.
Qed.

(** X19.  [device_state_attributes] returns exactly when [float] accepts both
    coordinates and [as_local] both dates; the keys of the returned
    dictionary are then the six attribute names less those the class
    excludes. *)
Theorem device_state_attributes_keys {cls : EntityClass} (e : Entity) :
  let r := (device_state_attributes e).1 in
  ((∃ d, r = Return d) ↔
     ∃ latitude longitude last_report last_kill,
       float (lat (trap e)) = Return latitude
       ∧ float (long (trap e)) = Return longitude
       ∧ as_local (last_report_date (trapstatistics (trap e))) = Return last_report
       ∧ as_local (last_kill_date (trapstatistics (trap e))) = Return last_kill)
  ∧ ∀ d, r = Return d → ∀ key,
      is_Some (d !! key) ↔
        key ∈ [ATTR_BATTERY_LEVEL; ATTR_SSID; ATTR_LATITUDE; ATTR_LONGITUDE;
               ATTR_LAST_REPORT_DATE; ATTR_LAST_KILL_DATE]
        ∧ key ∉ _exclude_device_state_attributes.
Proof.
  intros r. unfold r, device_state_attributes, lift. unfold_M. simpl.
  destruct (float (lat (trap e))) as [a|x]; simpl;
    [|split; [split; [by intros [? ?]|by intros (?&?&?&?&?&?)]|done]].
  destruct (float (long (trap e))) as [b|x]; simpl;
    [|split; [split; [by intros [? ?]|by intros (?&?&?&?&?&?&?)]|done]].
  destruct (as_local (last_report_date _)) as [c|x]; simpl;
    [|split; [split; [by intros [? ?]|by intros (?&?&?&?&?&?&?&?)]|done]].
  destruct (as_local (last_kill_date _)) as [k|x]; simpl;
    [|split; [split; [by intros [? ?]|by intros (?&?&?&?&?&?&?&?)]|done]].
  split; [split; eauto 10|].
  intros d [= <-] key. rewrite exclude_keys_lookup.
  case_decide as Hex; [split; [by intros [? ?]|tauto]|].
  rewrite !lookup_insert_is_Some', lookup_empty, is_Some_alt.
  rewrite !elem_of_cons, elem_of_nil. intuition congruence.
Qed.

(** X20.  The binary sensor does not drop the last kill date: it names the
    attribute in [_exclude_extra_state_attributes], which
    [device_state_attributes] does not read, so the attribute is in every
    dictionary the property returns. *)
Theorem binary_sensor_keeps_last_kill_date_attribute (e : Entity) (d : gmap string PyVal) :
  (@device_state_attributes _ _ VictorSmartKillBinarySensor e).1 = Return d →
  ATTR_LAST_KILL_DATE ∈ _exclude_extra_state_attributes
  ∧ ∃ last_kill,
      as_local (last_kill_date (trapstatistics (trap e))) = Return last_kill
      ∧ d !! ATTR_LAST_KILL_DATE = Some (VDatetime last_kill).
Proof.
  unfold device_state_attributes, lift. unfold_M. simpl.
  destruct (float (lat (trap e))) as [a|x]; simpl; [|done].
  destruct (float (long (trap e))) as [b|x]; simpl; [|done].
  destruct (as_local (last_report_date _)) as [c|x]; simpl; [|done].
  destruct (as_local (last_kill_date _)) as [k|x]; simpl; [|done].
  intros [= <-]. split; [by left|]. exists k. split; [done|].
  by rewrite lookup_insert_eq.
Qed.








(** When the coordinator holds no data, the platform setup raises
    [TypeError] and neither adds an entity nor logs. *)
Lemma binary_sensor_setup_without_data (context : IntegrationContext) (p : Platform) :
  data (context_coordinator context) = None →
  (∃ msg, (binary_sensor_async_setup_entry context p).1 = Raise (TypeError msg))
  ∧ (binary_sensor_async_setup_entry context p).2 = p.
Proof.
  intros Hd. unfold binary_sensor_async_setup_entry. rewrite Hd. by eauto.
Qed.

End Adapters.

(** ** The model on the sample values *)

Example SCAN_INTERVAL_normal_form :
  SCAN_INTERVAL = {| days := 0; seconds := 300; microseconds := 0 |}.
Proof. reflexivity. Qed.

Example sorted_sample : sorted [3; 1; 2; 1]%Z = [1; 1; 2; 3]%Z.
Proof. reflexivity. Qed.

Example str_ints_sample : str_ints [7; -2]%Z = "[7, -2]".
Proof. reflexivity. Qed.

Example binary_sensor_sample :
  let e := {| coordinator := sample_coordinator (Some [sample_trap 2 1]);
              trap := sample_trap 2 1 |} in
  (@entity_name sample_host VictorSmartKillBinarySensor e).1 = Return "Garage capture"
  ∧ (@unique_id sample_const sample_host VictorSmartKillBinarySensor e).1
      = Return "victorsmartkill_2_capture"
  ∧ (@is_on sample_host e).1 = Return true.
Proof. by vm_compute. Qed.

(** The binary sensor inherits the empty exclusion list, so the last kill
    date stays among its state attributes. *)
Example binary_sensor_keeps_last_kill_date :
  let e := {| coordinator := sample_coordinator (Some [sample_trap 2 1]);
              trap := sample_trap 2 1 |} in
  ∃ d, (@device_state_attributes sample_const sample_host VictorSmartKillBinarySensor e).1
         = Return d
       ∧ d !! "last_kill_date" = Some (@VDatetime sample_host 1590000000%Z).
Proof. eexists. split; [reflexivity|]. by vm_compute. Qed.

Example setup_with_failed_fetch :
  (@async_setup_entry sample_const sample_host sample_entry
     (Raise (Exc "HTTPError" "503")) sample_hass).1 = Raise ConfigEntryNotReady.
Proof. by vm_compute. Qed.

Example setup_registers_enabled_platforms :
  platforms sample_registered = ["binary_sensor"]
  ∧ data sample_registered = Some [sample_trap 1 0].
Proof. by vm_compute. Qed.

(** ** The theorems on the sample values *)

(** C1 on a stored list with identifier 1 and a fetch returning identifiers
    2 and 1: the event is raised. *)
Lemma async_update_data_raises_on_sample :
  @raises_trap_list_changed sample_const sample_host
    (sample_world (Some [sample_trap 1 0]))
    (@async_update_data sample_const sample_host
       (Return [sample_trap 2 0; sample_trap 1 0])
       (sample_world (Some [sample_trap 1 0]))).2.
Proof.
  apply (@async_update_data_raises_iff_sorted_ids_differ sample_const sample_host
           (sample_world (Some [sample_trap 1 0])) [sample_trap 1 0]
           (Return [sample_trap 2 0; sample_trap 1 0]) eq_refl).
  - discriminate.
  - eexists. split; [reflexivity|]. vm_compute. discriminate.
Defined.

(** C2 fails as stated: with trap 1 stored and a fetch that delivers trap 1
    twice, the returned list holds the record twice, and the record is one
    of the previous fetch. *)
Lemma returned_list_not_deduplicated :
  (@async_update_data sample_const sample_host
     (Return [sample_trap 1 0; sample_trap 1 0])
     (sample_world (Some [sample_trap 1 0]))).1
    = Return [sample_trap 1 0; sample_trap 1 0]
  ∧ ¬ NoDup [sample_trap 1 0; sample_trap 1 0]
  ∧ sample_trap 1 0 ∈ [sample_trap 1 0].
Proof.
  split; [reflexivity|]. split; [|by left].
  intros Hn. inversion Hn as [|? ? Hx _]. apply Hx. by left.
Qed.

(** C3 on the same cycle as C1. *)
Lemma trap_list_changed_payload_on_sample :
  ∃ previous traps,
    data (self (sample_world (Some [sample_trap 1 0]))) = Some previous
    ∧ Return [sample_trap 2 0; sample_trap 1 0] = Return traps
    ∧ event_data (@trap_list_changed sample_const [1%Z] [1%Z; 2%Z]) !! "previous_traps"
        = Some (sorted (id <$> previous))
    ∧ event_data (@trap_list_changed sample_const [1%Z] [1%Z; 2%Z]) !! "current_traps"
        = Some (sorted (id <$> traps))
    ∧ ∀ key, key ≠ "previous_traps" → key ≠ "current_traps" →
        event_data (@trap_list_changed sample_const [1%Z] [1%Z; 2%Z]) !! key = None.
Proof.
  apply (@trap_list_changed_payload sample_const sample_host
           (sample_world (Some [sample_trap 1 0]))
           (Return [sample_trap 2 0; sample_trap 1 0])
           (@trap_list_changed sample_const [1%Z] [1%Z; 2%Z])).
  - reflexivity.
  - vm_compute. reflexivity.
Defined.

(** C4 on a coordinator without data and a fetch returning one trap. *)
Lemma no_event_without_previous_traps_on_sample :
  bus (@async_update_data sample_const sample_host
         (Return [sample_trap 1 0]) (sample_world None)).2 = [].
Proof.
  apply (@no_event_without_previous_traps sample_const sample_host
           (sample_world None) (Return [sample_trap 1 0])).
  left. reflexivity.
Defined.

(** C6 fails as stated: stored identifiers [1], fetched identifiers [1; 1].
    The sorted sequences differ and the event is raised, yet the identifier
    sets are equal. *)
Lemma sorted_ids_differ_with_equal_sets :
  sorted (id <$> [sample_trap 1 0]) ≠ sorted (id <$> [sample_trap 1 0; sample_trap 1 0])
  ∧ list_to_set (id <$> [sample_trap 1 0])
      =@{gset Z} list_to_set (id <$> [sample_trap 1 0; sample_trap 1 0])
  ∧ bus (@async_update_data sample_const sample_host
           (Return [sample_trap 1 0; sample_trap 1 0])
           (sample_world (Some [sample_trap 1 0]))).2
      = [@trap_list_changed sample_const [1%Z] [1%Z; 1%Z]].
Proof.
  split; [vm_compute; discriminate|]. split; [|by vm_compute].
  simpl. set_solver.
Qed.

(** C9 on a list with identifiers 1, 2, 2 and [trap_id = 2]. *)
Lemma entity_init_on_sample :
  let c := sample_coordinator (Some [sample_trap 1 0; sample_trap 2 1; sample_trap 2 0]) in
  ((∃ l1 t l2,
       [sample_trap 1 0; sample_trap 2 1; sample_trap 2 0] = l1 ++ t :: l2
       ∧ id t = 2%Z ∧ Forall (λ u, id u ≠ 2%Z) l1
       ∧ VictorSmartKillEntity__init__ 2 c = Return {| coordinator := c; trap := t |})
   ∨ (Forall (λ u, id u ≠ 2%Z) [sample_trap 1 0; sample_trap 2 1; sample_trap 2 0]
       ∧ VictorSmartKillEntity__init__ 2 c = Raise StopIteration))
  ∧ ∀ msg, VictorSmartKillEntity__init__ 2 c ≠ Raise (ValueError msg).
Proof.
  exact (@entity_init_first_match_or_StopIteration sample_host
           (sample_coordinator (Some [sample_trap 1 0; sample_trap 2 1; sample_trap 2 0]))
           [sample_trap 1 0; sample_trap 2 1; sample_trap 2 0] 2%Z eq_refl).
Defined.

(** C10 on the coordinator registered by the sample setup, after a refresh
    whose fetch fails. *)
Lemma update_interval_fixed_on_sample :
  let c := self (@run_op sample_const sample_host
                   (op_async_refresh (Raise (Exc "TimeoutError" "timed out")))
                   {| self := sample_registered; bus := []; log := [] |}) in
  update_interval c = SCAN_INTERVAL ∧ total_seconds (update_interval c) = (5 * 60)%Z.
Proof.
  apply (@update_interval_fixed sample_const sample_host).
  apply lifetime_call.
  apply (lifetime_setup sample_entry (Return [sample_trap 1 0]) sample_hass
           sample_hass_after_setup).
  - vm_compute. reflexivity.
  - vm_compute. reflexivity.
Defined.

(** ** The further theorems on the sample values *)

Section on_samples.
#[local] Existing Instances sample_const sample_host.

(** X2 on the cycle from identifier 1 to identifiers 2 and 1. *)
Lemma raised_event_lists_on_sample :
  ∃ previous current,
    event_data (trap_list_changed [1%Z] [1%Z; 2%Z]) !! "previous_traps" = Some previous
    ∧ event_data (trap_list_changed [1%Z] [1%Z; 2%Z]) !! "current_traps" = Some current
    ∧ previous ≠ current ∧ previous ≠ []
    ∧ Sorted Z.le previous ∧ Sorted Z.le current.
Proof.
  apply (raised_event_lists_sorted_and_distinct
           (sample_world (Some [sample_trap 1 0]))
           (Return [sample_trap 2 0; sample_trap 1 0])).
  vm_compute. reflexivity.
Defined.

(** X3: the stored traps 1 and 2 come back in the other order, trap 2 with
    three kills. *)
Lemma same_ids_raise_no_event_on_sample :
  bus (async_update_data (Return [sample_trap 2 3; sample_trap 1 0])
         (sample_world (Some [sample_trap 1 0; sample_trap 2 0]))).2 = []
  ∧ (async_update_data (Return [sample_trap 2 3; sample_trap 1 0])
       (sample_world (Some [sample_trap 1 0; sample_trap 2 0]))).1
      = Return [sample_trap 2 3; sample_trap 1 0].
Proof.
  apply (same_ids_raise_no_event (sample_world (Some [sample_trap 1 0; sample_trap 2 0]))
           [sample_trap 1 0; sample_trap 2 0]).
  - reflexivity.
  - apply perm_swap.
Defined.

(** X5: a reordered fetch, a failed fetch and an unchanged fetch in a row. *)
Lemma stable_trap_list_on_sample :
  bus (run_ops (op_async_refresh <$>
                  [Return [sample_trap 2 0; sample_trap 1 0];
                   Raise (Exc "HTTPError" "503");
                   Return [sample_trap 1 5; sample_trap 2 0]])
         (sample_world (Some [sample_trap 1 0; sample_trap 2 0]))) = [].
Proof.
  apply (stable_trap_list_raises_nothing
           (sample_world (Some [sample_trap 1 0; sample_trap 2 0]))
           [sample_trap 1 0; sample_trap 2 0]).
  - reflexivity.
  - repeat constructor.
Defined.

(** X6: trap 1 is fetched, a fetch fails, traps 1 and 2 are fetched. *)
Lemma change_after_failed_refresh_on_sample :
  bus (run_ops [op_async_refresh (Return [sample_trap 1 0]);
                op_async_refresh (Raise (Exc "HTTPError" "503"));
                op_async_refresh (Return [sample_trap 1 0; sample_trap 2 0])]
         (sample_world None))
    = [trap_list_changed [1%Z] [1%Z; 2%Z]].
Proof.
  apply (change_after_failed_refresh_is_detected (sample_world None)
           [sample_trap 1 0] [sample_trap 1 0; sample_trap 2 0] (Exc "HTTPError" "503")).
  - discriminate.
  - reflexivity.
  - vm_compute. discriminate.
Defined.

(** X10: setting up the second entry keeps the first one's coordinator. *)
Lemma setup_other_entry_on_sample :
  registered (async_setup_entry sample_entry_other (Return [sample_trap 2 0])
                sample_hass_after_setup).2 sample_entry
    = registered sample_hass_after_setup sample_entry.
Proof.
  apply (async_setup_entry_other_entries sample_entry_other sample_entry).
  discriminate.
Defined.

(** X11: unloading the sample entry before it was set up. *)
Lemma unload_unregistered_on_sample :
  (∃ key, (async_unload_entry sample_entry (λ _, true) sample_hass).1
            = Raise (Exc "KeyError" key))
  ∧ hass_data (async_unload_entry sample_entry (λ _, true) sample_hass).2 = ∅
  ∧ tasks (async_unload_entry sample_entry (λ _, true) sample_hass).2 = []
  ∧ update_listeners (async_unload_entry sample_entry (λ _, true) sample_hass).2 = []
  ∧ listen_once (async_unload_entry sample_entry (λ _, true) sample_hass).2 = [].
Proof.
  apply (unload_unregistered_entry_raises sample_entry (λ _, true) sample_hass).
  reflexivity.
Defined.

(** X12: unloading the sample entry after setup, every platform unloading. *)
Lemma unload_registered_on_sample :
  ∃ unloaded c',
    (async_unload_entry sample_entry (λ _, true) sample_hass_after_setup).1
      = Return (unloaded, c')
    ∧ (unloaded = true ↔
         ∀ p, p ∈ PLATFORMS → p ∈ platforms sample_registered → (λ _, true) p = true)
    ∧ if unloaded
      then registered (async_unload_entry sample_entry (λ _, true)
                         sample_hass_after_setup).2 sample_entry = None
           ∧ is_closed (_client c') = true
           ∧ data c' = data sample_registered
           ∧ platforms c' = platforms sample_registered
      else registered (async_unload_entry sample_entry (λ _, true)
                         sample_hass_after_setup).2 sample_entry = Some sample_registered
           ∧ c' = sample_registered.
Proof.
  apply (unload_registered_entry sample_entry (λ _, true) sample_hass_after_setup
           sample_registered).
  vm_compute. reflexivity.
Defined.

(** X13: unloading the first entry with the second one not set up. *)
Lemma unload_other_entry_on_sample :
  registered (async_unload_entry sample_entry (λ _, true) sample_hass_after_setup).2
      sample_entry_other
    = registered sample_hass_after_setup sample_entry_other
  ∧ update_listeners (async_unload_entry sample_entry (λ _, true)
                        sample_hass_after_setup).2
      = update_listeners sample_hass_after_setup
  ∧ listen_once (async_unload_entry sample_entry (λ _, true) sample_hass_after_setup).2
      = listen_once sample_hass_after_setup.
Proof.
  apply (async_unload_entry_other_entries sample_entry sample_entry_other).
  discriminate.
Defined.


(** X16: reloading the sample entry before it was set up. *)
Lemma reload_unregistered_on_sample :
  (∃ key, (async_reload_entry sample_entry (λ _, true) (Return [sample_trap 1 0])
             sample_hass).1 = Raise (Exc "KeyError" key))
  ∧ hass_data (async_reload_entry sample_entry (λ _, true) (Return [sample_trap 1 0])
                 sample_hass).2 = ∅
  ∧ tasks (async_reload_entry sample_entry (λ _, true) (Return [sample_trap 1 0])
             sample_hass).2 = []
  ∧ update_listeners (async_reload_entry sample_entry (λ _, true)
                        (Return [sample_trap 1 0]) sample_hass).2 = []
  ∧ listen_once (async_reload_entry sample_entry (λ _, true) (Return [sample_trap 1 0])
                   sample_hass).2 = [].
Proof.
  apply (reload_unregistered_entry sample_entry (λ _, true) (Return [sample_trap 1 0])
           sample_hass).
  reflexivity.
Defined.


(** X20 on the sample entity. *)
Lemma binary_sensor_keeps_last_kill_date_on_sample :
  ATTR_LAST_KILL_DATE ∈ _exclude_extra_state_attributes
  ∧ ∃ last_kill,
      as_local (last_kill_date (trapstatistics (trap sample_entity))) = Return last_kill
      ∧ sample_attributes !! ATTR_LAST_KILL_DATE = Some (VDatetime last_kill).
Proof.
  apply (binary_sensor_keeps_last_kill_date_attribute sample_entity sample_attributes).
  vm_compute. reflexivity.
Defined.




End on_samples.
